(** * Built-in signals of udsp: a shallow embedding of [udsp/signal/builtin.py]

    The generators of [builtin.py] are embedded as Rocq functions.  Python
    numbers are modelled as exact rationals ([Q]) and decoded media samples
    as integers ([Z]); the rounding error of binary floating point is not
    modelled.  Python exceptions are modelled by the [result] type, shared
    mutable state (class attributes, instance attributes, the state of the
    random sources) by explicit state passing. *)

From Stdlib Require Import QArith Qround Qabs ZArith Lqa.
From stdpp Require Import gmap strings list fin_maps.

Open Scope Q_scope.

(* ===================================================================== *)
(** * Python values, exceptions and effects *)
(* ===================================================================== *)

(** The exceptions that the code of [builtin.py] can raise, followed by the
    three error kinds that the specification names.  No statement of
    [builtin.py] raises one of the last three. *)
Inductive exn : Type :=
| KeyError (key : string)
| IndexError
| TypeError
| ZeroDivisionError
| AttributeError (attr : string)
| RuntimeError (msg : string)
| UnknownDistribution
| InvalidDistributionParameters
| UnsupportedChannelLayout.

(** The outcome of a Python expression: a value or a raised exception. *)
Inductive result (A : Type) : Type :=
| Ok (a : A)
| Raise (e : exn).
Arguments Ok {A} a.
Arguments Raise {A} e.

#[global] Instance result_ret : MRet result := fun _ a => Ok a.
#[global] Instance result_bind : MBind result := fun _ _ k r =>
  match r with
  | Ok a => k a
  | Raise e => Raise e
  end.

(** Code that reads and writes a store [S] and may raise: the store at the
    point of the [raise] is kept, as in Python, where assignments made
    before an exception are not rolled back. *)
Definition eff (S A : Type) : Type := S -> result A * S.

#[global] Instance eff_ret {S} : MRet (eff S) := fun _ a s => (Ok a, s).
#[global] Instance eff_bind {S} : MBind (eff S) := fun _ _ k c s =>
  match c s with
  | (Ok a, s') => k a s'
  | (Raise e, s') => (Raise e, s')
  end.

(** Reading the store, and the outcome of a pure expression. *)
Definition get {S} : eff S S := fun s => (Ok s, s).
Definition lift {S A} (r : result A) : eff S A := fun s => (r, s).

(** [l[n]] for a non-negative index: [IndexError] when out of range. *)
Definition getitem {A} (l : list A) (n : nat) : result A :=
  match l !! n with
  | Some v => Ok v
  | None => Raise IndexError
  end.

(** Python 3 [round(x)] with one argument: the nearest integer, a tie going
    to the even neighbour. *)
Definition py_round (q : Q) : Z :=
  let f := Qfloor q in
  match Qcompare (q - inject_Z f) (1 # 2) with
  | Lt => f
  | Gt => (f + 1)%Z
  | Eq => if Z.even f then f else (f + 1)%Z
  end.

(* ===================================================================== *)
(** * The container primitives of [udsp.core.mtx] *)
(* ===================================================================== *)

Module _mtx.

(** Modelled from the spec: [udsp/core/mtx.py] is not among the sources.
    [vec_new(length, indexFn)] builds a sequence by evaluating [indexFn]
    at every index, in the order 0 .. length-1. *)
Definition vec_new `{MBind M, MRet M} {A} (n : nat) (f : nat -> M A)
  : M (list A) :=
  mapM f (seq 0 n).

(** Modelled from the spec: [mat_new(rows, cols, indexFn)] builds a grid
    by evaluating [indexFn] at every index pair, in row-major order. *)
Definition mat_new `{MBind M, MRet M} {A} (rows cols : nat)
    (f : nat -> nat -> M A) : M (list (list A)) :=
  mapM (fun n => mapM (fun m => f n m) (seq 0 cols)) (seq 0 rows).

(** Modelled from the spec: the argument tuples of a composition are the
    vectors zipped, one tuple per index present in every vector. *)
Fixpoint tuples {A} (vecs : list (list A)) : list (list A) :=
  match vecs with
  | [] => []
  | [v] => map (fun a => [a]) v
  | v :: vs => zip_with cons v (tuples vs)
  end.

(** Modelled from the spec: [vec_compose(vecs, f)] fuses the vectors
    per sample, calling [f] on the samples found at one index. *)
Definition vec_compose {A B} (vecs : list (list A))
    (f : list A -> result B) : result (list B) :=
  mapM f (tuples vecs).

(** Modelled from the spec: [mat_compose(mats, f)] fuses the matrices
    per element, row by row. *)
Definition mat_compose {A B} (mats : list (list (list A)))
    (f : list A -> result B) : result (list (list B)) :=
  mapM (fun rows => vec_compose rows f) (tuples mats).

End _mtx.

(* ===================================================================== *)
(** * 1-D closed-form signals *)
(* ===================================================================== *)

Module Pulse1D.

Record t : Type := { xo : Q; w : Q; a : Q }.

(** [Pulse1D._generate] *)
Definition _generate (self : t) (x : list Q) : result (list Q) :=
  let x1 := xo self - w self / 2 in
  let x2 := xo self + w self / 2 in
  let f (n : nat) : result Q :=
    xn ← getitem x n;
    mret (if Qle_bool x1 xn && Qle_bool xn x2 then a self else 0) in
  _mtx.vec_new (length x) f.

End Pulse1D.

(* ===================================================================== *)
(** * 2-D closed-form signals *)
(* ===================================================================== *)

(** A cell of a 2-D domain grid holds a coordinate pair [p]; [p.1] is
    Python's [p[0]] and [p.2] is [p[1]]. *)

Module Pulse2D.

Record t : Type := { xo : Q * Q; w : Q * Q; a : Q }.

(** The bounding test [inbox] of [Pulse2D._generate]. *)
Definition inbox (x1 x2 y1 y2 : Q) (p : Q * Q) : bool :=
  (Qle_bool y1 p.1 && Qle_bool p.1 y2) &&
  (Qle_bool x1 p.2 && Qle_bool p.2 x2).

(** [Pulse2D._generate] *)
Definition _generate (self : t) (x : list (list (Q * Q)))
  : result (list (list Q)) :=
  let x1 := (xo self).1 - (w self).1 / 2 in
  let x2 := (xo self).1 + (w self).1 / 2 in
  let y1 := (xo self).2 - (w self).2 / 2 in
  let y2 := (xo self).2 + (w self).2 / 2 in
  let f (n m : nat) : result Q :=
    row ← getitem x n;
    p ← getitem row m;
    mret (if inbox x1 x2 y1 y2 p then a self else 0) in
  row0 ← getitem x 0;
  _mtx.mat_new (length x) (length row0) f.

(** The evaluation rule as the specification words it, with [xo] and [w]
    read vertical-first like the grid coordinates: component 0 of the
    point against component 0 of [xo] and [w], component 1 against
    component 1. *)
Definition spec_value (self : t) (p : Q * Q) : Q :=
  if (Qle_bool ((xo self).1 - (w self).1 / 2) p.1 &&
      Qle_bool p.1 ((xo self).1 + (w self).1 / 2)) &&
     (Qle_bool ((xo self).2 - (w self).2 / 2) p.2 &&
      Qle_bool p.2 ((xo self).2 + (w self).2 / 2))
  then a self else 0.

End Pulse2D.

Module Gaussian2D.

Record t : Type := { u : Q * Q; s : Q * Q; k : Q }.

(** Python's true division. *)
Definition truediv (n d : Q) : result Q :=
  if Qeq_bool d 0 then Raise ZeroDivisionError else Ok (n / d).

(** The argument that [Gaussian2D._generate] passes to [math.exp] at the
    grid point [p]. *)
Definition exponent (self : t) (p : Q * Q) : result Q :=
  e0 ← truediv (- (p.1 - (u self).1) ^ 2) (2 * (s self).1 ^ 2);
  e1 ← truediv ((p.2 - (u self).2) ^ 2) (2 * (s self).2 ^ 2);
  mret (e0 - e1).

(** [Gaussian2D._generate]; [exp] stands for [math.exp]. *)
Definition _generate (exp : Q -> Q) (self : t) (x : list (list (Q * Q)))
  : result (list (list Q)) :=
  let f (n m : nat) : result Q :=
    row ← getitem x n;
    p ← getitem row m;
    e ← exponent self p;
    mret (k self * exp e) in
  row0 ← getitem x 0;
  _mtx.mat_new (length x) (length row0) f.

End Gaussian2D.

Module Gaussian1D.

Record t : Type := { u : Q; s : Q; k : Q }.

(** The argument that [Gaussian1D._generate] passes to [math.exp] at the
    domain point [v]: [-(v - u) ** 2 / (2 * s ** 2)]. *)
Definition exponent (self : t) (v : Q) : result Q :=
  Gaussian2D.truediv (- (v - u self) ^ 2) (2 * s self ^ 2).

(** [Gaussian1D._generate]; [exp] stands for [math.exp]. *)
Definition _generate (exp : Q -> Q) (self : t) (x : list Q)
  : result (list Q) :=
  let f (n : nat) : result Q :=
    xn ← getitem x n;
    e ← exponent self xn;
    mret (k self * exp e) in
  _mtx.vec_new (length x) f.

End Gaussian1D.

Module Const1D.

Record t : Type := { k : Q }.

(** [Const1D._generate] *)
Definition _generate (self : t) (x : list Q) : result (list Q) :=
  let f (n : nat) : result Q := mret (k self) in
  _mtx.vec_new (length x) f.

End Const1D.

Module Const2D.

Record t : Type := { k : Q }.

(** [Const2D._generate] *)
Definition _generate (self : t) (x : list (list (Q * Q)))
  : result (list (list Q)) :=
  let f (n m : nat) : result Q := mret (k self) in
  row0 ← getitem x 0;
  _mtx.mat_new (length x) (length row0) f.

End Const2D.

(* ===================================================================== *)
(** * Noise signals *)
(* ===================================================================== *)

(** A value of the [pdf_params] dictionary: a number, or the pair of a
    truncation interval. *)
Inductive value : Type :=
| VNum (q : Q)
| VPair (a b : Q).

#[global] Instance value_eq_dec : EqDecision value.
Proof.
  intros [[n1 d1]|[n1 d1] [n2 d2]] [[m1 e1]|[m1 e1] [m2 e2]];
    unfold Decision; try (right; discriminate).
  - destruct (decide (n1 = m1)), (decide (d1 = e1));
      try (right; congruence); left; congruence.
  - destruct (decide (n1 = m1)), (decide (d1 = e1)),
      (decide (n2 = m2)), (decide (d2 = e2));
      try (right; congruence); left; congruence.
Defined.

(** The keyword arguments of a call. *)
Abbreviation kwargs := (gmap string value).

Module _stat.

(** The sampling primitives of [udsp.core.stat] that [builtin.py] names.
    [udsp/core/stat.py] is not among the sources: the generators below
    take the behaviour of a primitive as a parameter [call]. *)
Inductive rng : Type :=
| rng_uniform
| rng_normal
| rng_cauchy_lorentz
| rng_laplace.

End _stat.

Module RNGMixin.

(** [RNGMixin.dist] *)
Definition dist : gmap string _stat.rng :=
  {[ "uniform" := _stat.rng_uniform;
     "normal" := _stat.rng_normal;
     "lorentz" := _stat.rng_cauchy_lorentz;
     "laplace" := _stat.rng_laplace ]}.

(** [d[key]] on a dictionary. *)
Definition subscript {V} (d : gmap string V) (key : string) : result V :=
  match d !! key with
  | Some v => Ok v
  | None => Raise (KeyError key)
  end.

(** [pdf_params or {}]: [None] and the empty dictionary are falsy. *)
Definition or_empty (pdf_params : option kwargs) : kwargs :=
  match pdf_params with
  | None => ∅
  | Some d => if decide (d = ∅) then ∅ else d
  end.

End RNGMixin.

Module Noise1D.
Section Noise1D.

(** [St] is the state of the random sources; [call g kw] is the call of
    the primitive [g] with the keyword arguments [kw]. *)
Context {St : Type} (call : _stat.rng -> kwargs -> eff St Q).

Record t : Type :=
  { pdf : string; pdf_params : option kwargs; signal : option (list Q) }.

(** [Noise1D._generate] *)
Definition _generate (self : t) (x : list Q) : eff St (list Q) :=
  let f (n : nat) : eff St Q :=
    g ← lift (RNGMixin.subscript RNGMixin.dist (pdf self));
    call g (RNGMixin.or_empty (pdf_params self)) in
  _mtx.vec_new (length x) f.

(** Modelled from the spec: [Builtin1D.make] of [udsp/signal/bbase.py],
    which is not among the sources, invokes the evaluator once on the
    domain axis and stores the sequence it returns. *)
Definition make (self : t) (x : list Q) : eff St t :=
  y ← _generate self x;
  mret {| pdf := pdf self; pdf_params := pdf_params self;
          signal := Some y |}.

(** [Noise1D.__init__]; the domain axis [x] stands for the keyword
    arguments from which the base class builds it. *)
Definition __init__ (x : list Q) (pdf : string)
    (pdf_params : option kwargs) : eff St t :=
  make {| pdf := pdf; pdf_params := pdf_params; signal := None |} x.

End Noise1D.
End Noise1D.

Module Noise2D.
Section Noise2D.

Context {St : Type} (call : _stat.rng -> kwargs -> eff St Q).

Record t : Type :=
  { pdf : string; pdf_params : option kwargs;
    signal : option (list (list Q)) }.

(** [Noise2D._generate] *)
Definition _generate (self : t) (x : list (list (Q * Q)))
  : eff St (list (list Q)) :=
  let f (n m : nat) : eff St Q :=
    g ← lift (RNGMixin.subscript RNGMixin.dist (pdf self));
    call g (RNGMixin.or_empty (pdf_params self)) in
  row0 ← lift (getitem x 0);
  _mtx.mat_new (length x) (length row0) f.

(** Modelled from the spec: [Builtin2D.make], as [Noise1D.make]. *)
Definition make (self : t) (x : list (list (Q * Q))) : eff St t :=
  y ← _generate self x;
  mret {| pdf := pdf self; pdf_params := pdf_params self;
          signal := Some y |}.

(** [Noise2D.__init__] *)
Definition __init__ (x : list (list (Q * Q))) (pdf : string)
    (pdf_params : option kwargs) : eff St t :=
  make {| pdf := pdf; pdf_params := pdf_params; signal := None |} x.

End Noise2D.
End Noise2D.

(* ===================================================================== *)
(** * Signals extracted from decoded media *)
(* ===================================================================== *)

Module _media.

(** Modelled from the spec: [udsp/core/media.py] is not among the
    sources.  The media decode primitives return, for audio, a list of
    per-channel sample sequences plus metadata (size, resolution, bits
    per sample); for images, a list of per-plane sample grids plus
    metadata (pixel dimensions).  A source object stands for the decoded
    file behind a path; [load] returns its channels or planes. *)
Record AudioMetadata : Type := { size : Z; resolution : Z; bps : Z }.

(** Modelled from the spec: an audio source, with its metadata and the
    per-channel sample sequences that decoding yields. *)
Record Audio : Type :=
  { metadata : AudioMetadata; channels : list (list Z) }.

(** Modelled from the spec: [Audio.load] returns the list of channels. *)
Definition load (audio : Audio) : list (list Z) := channels audio.

(** Modelled from the spec: an image source, with its pixel dimensions and
    the per-plane sample grids that decoding yields. *)
Record Image : Type :=
  { image_size : Z * Z; planes : list (list (list Z)) }.

(** Modelled from the spec: [Image.load] returns the list of planes. *)
Definition image_load (image : Image) : list (list (list Z)) :=
  planes image.

End _media.

(** Attribute assignment on an object whose attributes are the store. *)
Definition modify {S} (g : S -> S) : eff S unit := fun s => (Ok tt, g s).

Module MonoAudio.

(** The attributes of an instance; [None] is Python's [None] (also the
    state of an attribute before [__init__] has set it). *)
Record t : Type :=
  { _audio : option _media.Audio;
    _bps : option Z;
    signal : option (list Z) }.

Definition fresh : t := {| _audio := None; _bps := None; signal := None |}.

(** [lambda l, r: round((l + r) / 2)] *)
Definition mean (l r : Z) : Z := py_round (inject_Z (l + r) / 2).

(** The call of the two-parameter lambda on an argument tuple. *)
Definition downmix (args : list Z) : result Z :=
  match args with
  | [l; r] => Ok (mean l r)
  | _ => Raise TypeError
  end.

(** [MonoAudio._generate]; the store is [self]. *)
Definition _generate (x : list Q) : eff t (list Z) :=
  self ← get;
  audio ← lift (match _audio self with
                | Some audio => Ok audio
                | None => Raise (AttributeError "load")
                end);
  let channels := _media.load audio in
  channel ← lift (
    if decide (length channels = 1%nat) then getitem channels 0
    else if decide (length channels = 2%nat) then
      _mtx.vec_compose channels downmix
    else Raise (RuntimeError "Bug"));
  modify (fun self => {| _audio := None; _bps := _bps self;
                         signal := signal self |});;
  mret channel.

(** Modelled from the spec: [Builtin1D.make] invokes the evaluator once
    and stores the sequence it returns. *)
Definition make (x : list Q) : eff t unit :=
  y ← _generate x;
  modify (fun self => {| _audio := _audio self; _bps := _bps self;
                         signal := Some y |}).

(** [MonoAudio.__init__] on a fresh instance; [audio] is the source
    decoded from [path], and the domain axis [x] is the one that the base
    class builds from the [length] and [sfreq] arguments. *)
Definition __init__ (x : list Q) (audio : _media.Audio) : eff t unit :=
  modify (fun self => {| _audio := Some audio; _bps := _bps self;
                         signal := signal self |});;
  modify (fun self => {| _audio := _audio self;
                         _bps := Some (_media.bps (_media.metadata audio));
                         signal := signal self |});;
  make x.

(** The constructor call [MonoAudio(path)]: the caller receives the
    instance only when [__init__] returns. *)
Definition new (x : list Q) (audio : _media.Audio) : result t :=
  match __init__ x audio fresh with
  | (Ok _, self) => Ok self
  | (Raise e, _) => Raise e
  end.

(** The property [MonoAudio.sampres] *)
Definition sampres (self : t) : option Z := _bps self.

End MonoAudio.

Module AudioChannel.

(** The attributes of the class object [AudioChannel]: a name is bound to
    [None] or to a decoded buffer. *)
Abbreviation namespace := (gmap string (option (list (list Z)))).

(** The class body: [_audio = None]. *)
Definition class_body : namespace := {[ "_audio" := None ]}.

Record t : Type :=
  { _id : option nat; _bps : option Z; signal : option (list Z) }.

(** [AudioChannel.__init__] *)
Definition __init__ : t := {| _id := None; _bps := None; signal := None |}.

(** [AudioChannel._generate]: the instance has no attribute [_audio] of
    its own, so [self._audio] reads the class attribute. *)
Definition _generate (self : t) (x : list Q) : eff namespace (list Z) :=
  cls ← get;
  lift (match cls !! "_audio" with
        | None => Raise (AttributeError "_audio")
        | Some None => Raise TypeError
        | Some (Some audio) =>
            match _id self with
            | None => Raise TypeError
            | Some c => getitem audio c
            end
        end).

(** Modelled from the spec: [Builtin1D.make]. *)
Definition make (self : t) (x : list Q) : eff namespace t :=
  y ← _generate self x;
  mret {| _id := _id self; _bps := _bps self; signal := Some y |}.

(** [AudioChannel.from_file]; the store is the namespace of the class. *)
Definition from_file (x : list Q) (audio : _media.Audio)
  : eff namespace (list t) :=
  modify (insert "_audio" (Some (_media.load audio)));;
  cls ← get;
  buffer ← lift (match cls !! "_audio" with
                 | Some (Some buffer) => Ok buffer
                 | Some None => Raise TypeError
                 | None => Raise (AttributeError "_audio")
                 end);
  channels ← mapM (fun '(c, _) =>
      let channel := __init__ in
      let channel := {| _id := Some c; _bps := _bps channel;
                        signal := signal channel |} in
      let channel := {| _id := _id channel;
                        _bps := Some (_media.bps (_media.metadata audio));
                        signal := signal channel |} in
      make channel x) (imap pair buffer);
  modify (insert "_audio" None);;
  mret channels.

(** The properties [AudioChannel.id] and [AudioChannel.sampres] *)
Definition id (self : t) : option nat := _id self.
Definition sampres (self : t) : option Z := _bps self.

End AudioChannel.

Module GrayImage.

Record t : Type :=
  { _image : option _media.Image;
    signal : option (list (list Z)) }.

Definition fresh : t := {| _image := None; signal := None |}.

(** [lambda r, g, b: round(0.2126 * r + 0.7152 * g + 0.0722 * b)] *)
Definition weighted (r g b : Z) : Z :=
  py_round (0.2126 * inject_Z r + 0.7152 * inject_Z g
            + 0.0722 * inject_Z b).

(** The call of the three-parameter lambda on an argument tuple. *)
Definition luma (args : list Z) : result Z :=
  match args with
  | [r; g; b] => Ok (weighted r g b)
  | _ => Raise TypeError
  end.

(** [GrayImage._generate]; the store is [self]. *)
Definition _generate (x : list (list (Q * Q))) : eff t (list (list Z)) :=
  self ← get;
  image ← lift (match _image self with
                | Some image => Ok image
                | None => Raise (AttributeError "load")
                end);
  let planes := _media.image_load image in
  let n := length planes in
  yplane ← lift (
    if decide (n = 1 ∨ n = 2)%nat then getitem planes 0
    else if decide (n = 3 ∨ n = 4)%nat then
      let cplanes := if decide (n = 3)%nat then planes else take 3 planes in
      _mtx.mat_compose cplanes luma
    else Raise (RuntimeError "Bug"));
  modify (fun self => {| _image := None; signal := signal self |});;
  mret yplane.

(** Modelled from the spec: [Builtin2D.make]. *)
Definition make (x : list (list (Q * Q))) : eff t unit :=
  y ← _generate x;
  modify (fun self => {| _image := _image self; signal := Some y |}).

(** [GrayImage.__init__] on a fresh instance. *)
Definition __init__ (x : list (list (Q * Q))) (image : _media.Image)
  : eff t unit :=
  modify (fun self => {| _image := Some image; signal := signal self |});;
  make x.

(** The constructor call [GrayImage(path)]. *)
Definition new (x : list (list (Q * Q))) (image : _media.Image)
  : result t :=
  match __init__ x image fresh with
  | (Ok _, self) => Ok self
  | (Raise e, _) => Raise e
  end.

End GrayImage.

Module ImageChannel.

(** The attributes of the class object [ImageChannel]. *)
Abbreviation namespace := (gmap string (option (list (list (list Z))))).

(** The class body: [_image = None]. *)
Definition class_body : namespace := {[ "_image" := None ]}.

Record t : Type :=
  { _id : option nat; signal : option (list (list Z)) }.

(** [ImageChannel.__init__] *)
Definition __init__ : t := {| _id := None; signal := None |}.

(** [ImageChannel._generate] *)
Definition _generate (self : t) (x : list (list (Q * Q)))
  : eff namespace (list (list Z)) :=
  cls ← get;
  lift (match cls !! "_image" with
        | None => Raise (AttributeError "_image")
        | Some None => Raise TypeError
        | Some (Some image) =>
            match _id self with
            | None => Raise TypeError
            | Some c => getitem image c
            end
        end).

(** Modelled from the spec: [Builtin2D.make]. *)
Definition make (self : t) (x : list (list (Q * Q))) : eff namespace t :=
  y ← _generate self x;
  mret {| _id := _id self; signal := Some y |}.

(** [ImageChannel.from_file]; its last assignment is to [cls._audio]. *)
Definition from_file (x : list (list (Q * Q))) (image : _media.Image)
  : eff namespace (list t) :=
  modify (insert "_image" (Some (_media.image_load image)));;
  cls ← get;
  buffer ← lift (match cls !! "_image" with
                 | Some (Some buffer) => Ok buffer
                 | Some None => Raise TypeError
                 | None => Raise (AttributeError "_image")
                 end);
  channels ← mapM (fun '(c, _) =>
      let channel := __init__ in
      let channel := {| _id := Some c; signal := signal channel |} in
      make channel x) (imap pair buffer);
  modify (insert "_audio" None);;
  mret channels.

(** The property [ImageChannel.id] *)
Definition id (self : t) : option nat := _id self.

End ImageChannel.

(* ===================================================================== *)
(** * Notions of the specification *)
(* ===================================================================== *)

(** Fusing three sequences per sample, and three grids per pixel: the
    value at an index is [f] of the three values found at that index. *)
Definition per_sample3 {A B} (f : A -> A -> A -> B) (v1 v2 v3 : list A)
  : list B :=
  zip_with (fun a bc => f a bc.1 bc.2) v1 (zip v2 v3).

Definition per_pixel3 {A B} (f : A -> A -> A -> B) (m1 m2 m3 : list (list A))
  : list (list B) :=
  zip_with (fun r1 r23 => per_sample3 f r1 r23.1 r23.2) m1 (zip m2 m3).


(** A stand-in sampling primitive that requires the parameters [a] and
    [b] of the uniform distribution and raises the error kind of the
    specification when one is missing. *)
Definition demanding_rng : _stat.rng -> kwargs -> eff nat Q :=
  fun _ kw s =>
    match kw !! "a", kw !! "b" with
    | Some (VNum a), Some (VNum b) => (Ok a, S s)
    | _, _ => (Raise InvalidDistributionParameters, S s)
    end.

(* ===================================================================== *)
(** * Sample inputs *)
(* ===================================================================== *)

(** A stand-in sampling primitive for closed examples: it returns [0] and
    counts its calls. *)
Definition counting_rng : _stat.rng -> kwargs -> eff nat Q :=
  fun _ _ s => (Ok 0, S s).

Definition meta16 : _media.AudioMetadata :=
  {| _media.size := 2; _media.resolution := 1; _media.bps := 16 |}.

Definition audio_of (chans : list (list Z)) : _media.Audio :=
  {| _media.metadata := meta16; _media.channels := chans |}.

Definition image_of (planes : list (list (list Z))) : _media.Image :=
  {| _media.image_size := (1, 1)%Z; _media.planes := planes |}.

(** A one-pixel grid. *)
Definition grid1 : list (list (Q * Q)) := [[(0, 0)]].

(* ===================================================================== *)
(** * Sequencing lemmas *)
(* ===================================================================== *)

Lemma mapM_result_cons {A B} (f : A -> result B) a l :
  mapM f (a :: l) =
  match f a with
  | Ok y => match mapM f l with
            | Ok k => Ok (y :: k)
            | Raise e => Raise e
            end
  | Raise e => Raise e
  end.
Proof. reflexivity. Qed.

Lemma mapM_eff_cons {S A B} (f : A -> eff S B) a l s :
  mapM f (a :: l) s =
  match f a s with
  | (Ok y, s') => match mapM f l s' with
                  | (Ok k, s'') => (Ok (y :: k), s'')
                  | (Raise e, s'') => (Raise e, s'')
                  end
  | (Raise e, s') => (Raise e, s')
  end.
Proof. reflexivity. Qed.

Lemma mapM_result_Ok {A B} (f : A -> result B) (g : A -> B) (l : list A) :
  (forall a, a ∈ l -> f a = Ok (g a)) -> mapM f l = Ok (g <$> l).
Proof.
  induction l as [|a l IH]; intros Hf; [reflexivity|].
  rewrite mapM_result_cons, (Hf a) by apply list_elem_of_here.
  rewrite IH; [reflexivity|].
  intros b Hb. apply Hf. by apply list_elem_of_further.
Qed.

Lemma mapM_eff_Ok {S A B} (f : A -> eff S B) (g : A -> B) (l : list A) s :
  (forall a, a ∈ l -> f a s = (Ok (g a), s)) ->
  mapM f l s = (Ok (g <$> l), s).
Proof.
  induction l as [|a l IH]; intros Hf; [reflexivity|].
  rewrite mapM_eff_cons, (Hf a) by apply list_elem_of_here.
  rewrite IH; [reflexivity|].
  intros b Hb. apply Hf. by apply list_elem_of_further.
Qed.



Lemma getitem_Some {A} (l : list A) n v : l !! n = Some v -> getitem l n = Ok v.
Proof. unfold getitem. by intros ->. Qed.

Lemma getitem_middle {A} (pre : list A) a post :
  getitem (pre ++ a :: post) (length pre) = Ok a.
Proof. apply getitem_Some, list_lookup_middle. reflexivity. Qed.

(** Reading every index of a sequence and mapping a total function over
    what was read is [map]. *)
Lemma mapM_getitem {A B} (h : A -> B) (pre x : list A) :
  mapM (M := result) (fun n => xn ← getitem (pre ++ x) n; mret (h xn))
    (seq (length pre) (length x)) = Ok (h <$> x).
Proof.
  revert pre. induction x as [|a x IH]; intros pre; [reflexivity|].
  cbn [length seq]. rewrite mapM_result_cons, getitem_middle.
  specialize (IH (pre ++ [a])).
  rewrite <- app_assoc, length_app, Nat.add_1_r in IH. cbn [app] in IH.
  cbn [mbind result_bind mret result_ret]. by rewrite IH.
Qed.

Lemma vec_new_getitem {A B} (h : A -> B) (x : list A) :
  _mtx.vec_new (M := result) (length x)
    (fun n => xn ← getitem x n; mret (h xn)) = Ok (h <$> x).
Proof. apply (mapM_getitem h [] x). Qed.

(* ===================================================================== *)
(** * Pulse1D *)
(* ===================================================================== *)

(** The sequence that [Pulse1D._generate] returns. *)
Lemma Pulse1D_generate_map self x :
  Pulse1D._generate self x =
  Ok ((fun v =>
         if Qle_bool (Pulse1D.xo self - Pulse1D.w self / 2) v
            && Qle_bool v (Pulse1D.xo self + Pulse1D.w self / 2)
         then Pulse1D.a self else 0) <$> x).
Proof. unfold Pulse1D._generate. apply vec_new_getitem. Qed.




(* ===================================================================== *)
(** * Pulse2D *)
(* ===================================================================== *)




(** C1: at the grid cell whose coordinate pair is [(0, 10)] (vertical 0,
    horizontal 10), the pulse with [xo = (0, 10)], [w = (2, 2)], [a = 1]
    evaluates to [0] in the code, where the rule of the specification with
    [xo] and [w] read vertical-first gives [a = 1]; Gaussian2D with the
    same tuple as its mean [u] has its maximum (argument [0] of the
    exponential) at that cell. *)
Theorem Pulse2D_centre_cell_is_zero :
  Pulse2D._generate
    {| Pulse2D.xo := (0, 10); Pulse2D.w := (2, 2); Pulse2D.a := 1 |}
    [[(0, 10)]] = Ok [[0]] /\
  Pulse2D.spec_value
    {| Pulse2D.xo := (0, 10); Pulse2D.w := (2, 2); Pulse2D.a := 1 |}
    (0, 10) = 1 /\
  exists e,
    Gaussian2D.exponent
      {| Gaussian2D.u := (0, 10); Gaussian2D.s := (1, 1); Gaussian2D.k := 1 |}
      (0, 10) = Ok e /\ e == 0.
Proof.
  split; [reflexivity|]. split; [reflexivity|].
  eexists. split; [reflexivity|]. reflexivity.
Qed.

(* ===================================================================== *)
(** * Noise1D and Noise2D *)
(* ===================================================================== *)


Section NoiseFacts.

Context {St : Type} (call : _stat.rng -> kwargs -> eff St Q).





End NoiseFacts.




(** C10: for every noise generator constructed with [pdf_params] omitted or
    [None] and a key of the registry, construction is the sequence of one
    call per index (1-D), or per index pair in row-major order (2-D), of
    the selected sampling primitive with the empty keyword arguments,
    followed by the storing of the samples; the outcome is that of the
    primitive called without parameters. *)
Theorem noise_without_params_calls_bare_primitive {St}
    (call : _stat.rng -> kwargs -> eff St Q) (pdf : string) (g : _stat.rng)
    (x : list Q) (row0 : list (Q * Q)) (grid : list (list (Q * Q))) :
  RNGMixin.dist !! pdf = Some g ->
  Noise1D.__init__ call x pdf None =
    (y ← _mtx.vec_new (length x) (fun _ => call g ∅);
     mret {| Noise1D.pdf := pdf; Noise1D.pdf_params := None;
             Noise1D.signal := Some y |}) /\
  Noise2D.__init__ call (row0 :: grid) pdf None =
    (y ← _mtx.mat_new (S (length grid)) (length row0)
           (fun _ _ => call g ∅);
     mret {| Noise2D.pdf := pdf; Noise2D.pdf_params := None;
             Noise2D.signal := Some y |}).
Proof.
  intros Hg. split.
  - unfold Noise1D.__init__, Noise1D.make, Noise1D._generate.
    cbn [Noise1D.pdf Noise1D.pdf_params].
    unfold RNGMixin.subscript. rewrite Hg. reflexivity.
  - unfold Noise2D.__init__, Noise2D.make, Noise2D._generate.
    cbn [Noise2D.pdf Noise2D.pdf_params].
    unfold RNGMixin.subscript. rewrite Hg. reflexivity.
Qed.

Lemma noise_without_params_calls_bare_primitive_witness :
  Noise1D.__init__ counting_rng [0; 1; 2] "normal" None =
    (y ← _mtx.vec_new 3 (fun _ => counting_rng _stat.rng_normal ∅);
     mret {| Noise1D.pdf := "normal"; Noise1D.pdf_params := None;
             Noise1D.signal := Some y |}) /\
  Noise2D.__init__ counting_rng grid1 "normal" None =
    (y ← _mtx.mat_new 1 1 (fun _ _ => counting_rng _stat.rng_normal ∅);
     mret {| Noise2D.pdf := "normal"; Noise2D.pdf_params := None;
             Noise2D.signal := Some y |}).
Proof.
  apply (noise_without_params_calls_bare_primitive counting_rng "normal"
           _stat.rng_normal [0; 1; 2] [(0, 0)] []).
  reflexivity.
Defined.

(** With the counting primitive: three indices, three calls, and the
    parameters a dictionary carries reach the primitive. *)
Example noise_three_draws :
  Noise1D.__init__ counting_rng [0; 1; 2] "uniform" None 0%nat =
  (Ok {| Noise1D.pdf := "uniform"; Noise1D.pdf_params := None;
         Noise1D.signal := Some [0; 0; 0] |}, 3%nat).
Proof. reflexivity. Qed.

Example noise_missing_parameter_fails_in_primitive :
  fst (Noise1D.__init__ demanding_rng [0] "uniform" None 0%nat)
    = Raise InvalidDistributionParameters /\
  fst (Noise1D.__init__ demanding_rng [0] "uniform"
         (Some {[ "a" := VNum 0; "b" := VNum 1 ]}) 0%nat)
    = Ok {| Noise1D.pdf := "uniform";
            Noise1D.pdf_params := Some {[ "a" := VNum 0; "b" := VNum 1 ]};
            Noise1D.signal := Some [0] |}.
Proof. split; reflexivity. Qed.

(* ===================================================================== *)
(** * Compositions of channels and planes *)
(* ===================================================================== *)

Lemma vec_compose_downmix (l r : list Z) :
  _mtx.vec_compose [l; r] MonoAudio.downmix = Ok (zip_with MonoAudio.mean l r).
Proof.
  unfold _mtx.vec_compose. cbn [_mtx.tuples].
  revert r. induction l as [|a l IH]; intros [|b r]; try reflexivity.
  cbn [map zip_with]. rewrite mapM_result_cons. cbn [MonoAudio.downmix].
  by rewrite IH.
Qed.

Lemma vec_compose_luma (v1 v2 v3 : list Z) :
  _mtx.vec_compose [v1; v2; v3] GrayImage.luma
  = Ok (per_sample3 GrayImage.weighted v1 v2 v3).
Proof.
  unfold _mtx.vec_compose, per_sample3. cbn [_mtx.tuples].
  revert v2 v3.
  induction v1 as [|a v1 IH]; intros [|b v2] [|c v3]; try reflexivity.
  cbn [map zip_with zip]. rewrite mapM_result_cons. cbn [GrayImage.luma].
  by rewrite IH.
Qed.

Lemma mat_compose_luma (m1 m2 m3 : list (list Z)) :
  _mtx.mat_compose [m1; m2; m3] GrayImage.luma
  = Ok (per_pixel3 GrayImage.weighted m1 m2 m3).
Proof.
  unfold _mtx.mat_compose, per_pixel3. cbn [_mtx.tuples].
  revert m2 m3.
  induction m1 as [|a m1 IH]; intros [|b m2] [|c m3]; try reflexivity.
  cbn [map zip_with zip]. rewrite mapM_result_cons, vec_compose_luma.
  by rewrite IH.
Qed.

(** The value of a per-pixel fusion at an index pair. *)
Lemma per_pixel3_lookup {A B} (f : A -> A -> A -> B)
    (m1 m2 m3 : list (list A)) (n m : nat) (r1 r2 r3 : list A) (a b c : A) :
  m1 !! n = Some r1 -> m2 !! n = Some r2 -> m3 !! n = Some r3 ->
  r1 !! m = Some a -> r2 !! m = Some b -> r3 !! m = Some c ->
  exists row, per_pixel3 f m1 m2 m3 !! n = Some row /\
              row !! m = Some (f a b c).
Proof.
  intros H1 H2 H3 Ha Hb Hc. unfold per_pixel3.
  rewrite lookup_zip_with, H1. cbn.
  rewrite lookup_zip_with, H2. cbn. rewrite H3. cbn.
  eexists. split; [reflexivity|]. unfold per_sample3.
  rewrite lookup_zip_with, Ha. cbn.
  rewrite lookup_zip_with, Hb. cbn. rewrite Hc. reflexivity.
Qed.

(* ===================================================================== *)
(** * Rounding *)
(* ===================================================================== *)

Lemma Qfloor_half (k : Z) : Qfloor (inject_Z k + (1 # 2)) = k.
Proof.
  apply Z.le_antisymm.
  - apply Z.lt_succ_r. rewrite <- Z.add_1_r, Zlt_Qlt.
    rewrite inject_Z_plus. change (inject_Z 1) with 1.
    pose proof (Qfloor_le (inject_Z k + (1 # 2))). lra.
  - rewrite <- (Qfloor_Z k) at 1. apply Qfloor_resp_le. lra.
Qed.

(** A tie goes to the even neighbour. *)
Lemma py_round_tie (k : Z) :
  py_round (inject_Z k + (1 # 2)) = if Z.even k then k else (k + 1)%Z.
Proof.
  unfold py_round. rewrite Qfloor_half.
  assert (E : Qcompare (inject_Z k + (1 # 2) - inject_Z k) (1 # 2) = Eq).
  { apply Qeq_alt. lra. }
  by rewrite E.
Qed.

(** [round] returns a nearest integer. *)
Lemma py_round_nearest (q : Q) :
  Qabs (q - inject_Z (py_round q)) <= 1 # 2.
Proof.
  unfold py_round.
  pose proof (Qfloor_le q) as Hlo. pose proof (Qlt_floor q) as Hhi.
  rewrite inject_Z_plus in Hhi. change (inject_Z 1) with 1 in Hhi.
  apply Qabs_Qle_condition.
  destruct (Qcompare_spec (q - inject_Z (Qfloor q)) (1 # 2)) as [E|E|E].
  - destruct (Z.even (Qfloor q));
      rewrite ?inject_Z_plus; change (inject_Z 1) with 1; lra.
  - lra.
  - rewrite inject_Z_plus. change (inject_Z 1) with 1. lra.
Qed.

(* ===================================================================== *)
(** * MonoAudio *)
(* ===================================================================== *)

Lemma MonoAudio_init_mono x meta ch :
  MonoAudio.__init__ x {| _media.metadata := meta; _media.channels := [ch] |}
    MonoAudio.fresh
  = (Ok tt, {| MonoAudio._audio := None;
               MonoAudio._bps := Some (_media.bps meta);
               MonoAudio.signal := Some ch |}).
Proof. reflexivity. Qed.

Lemma MonoAudio_init_stereo x meta l r :
  MonoAudio.__init__ x
    {| _media.metadata := meta; _media.channels := [l; r] |} MonoAudio.fresh
  = (Ok tt, {| MonoAudio._audio := None;
               MonoAudio._bps := Some (_media.bps meta);
               MonoAudio.signal := Some (zip_with MonoAudio.mean l r) |}).
Proof.
  unfold MonoAudio.__init__, MonoAudio.make, MonoAudio._generate.
  unfold mbind, eff_bind, modify, get, lift, MonoAudio.fresh.
  cbn -[_mtx.vec_compose]. by rewrite vec_compose_downmix.
Qed.

Lemma MonoAudio_init_unsupported x audio :
  length (_media.load audio) <> 1%nat ->
  length (_media.load audio) <> 2%nat ->
  MonoAudio.__init__ x audio MonoAudio.fresh
  = (Raise (RuntimeError "Bug"),
     {| MonoAudio._audio := Some audio;
        MonoAudio._bps := Some (_media.bps (_media.metadata audio));
        MonoAudio.signal := None |}).
Proof.
  intros H1 H2.
  unfold MonoAudio.__init__, MonoAudio.make, MonoAudio._generate.
  unfold mbind, eff_bind, modify, get, lift, MonoAudio.fresh. cbn.
  destruct (decide (length (_media.load audio) = 1%nat)); [done|].
  destruct (decide (length (_media.load audio) = 2%nat)); [done|].
  reflexivity.
Qed.

(* ===================================================================== *)
(** * GrayImage *)
(* ===================================================================== *)

Lemma GrayImage_init_colour x size r g b rest :
  (length rest <= 1)%nat ->
  GrayImage.__init__ x
    {| _media.image_size := size; _media.planes := r :: g :: b :: rest |}
    GrayImage.fresh
  = (Ok tt, {| GrayImage._image := None;
               GrayImage.signal :=
                 Some (per_pixel3 GrayImage.weighted r g b) |}).
Proof.
  intros Hrest.
  unfold GrayImage.__init__, GrayImage.make, GrayImage._generate.
  unfold mbind, eff_bind, modify, get, lift, GrayImage.fresh.
  destruct rest as [|alpha [|? ?]]; [| |cbn in Hrest; lia];
    cbn -[_mtx.mat_compose];
    repeat (case_decide; try (exfalso; lia));
    by rewrite mat_compose_luma.
Qed.

Lemma GrayImage_init_gray x size plane rest :
  (length rest <= 1)%nat ->
  GrayImage.__init__ x
    {| _media.image_size := size; _media.planes := plane :: rest |}
    GrayImage.fresh
  = (Ok tt, {| GrayImage._image := None;
               GrayImage.signal := Some plane |}).
Proof.
  intros Hrest. destruct rest as [|alpha [|? ?]]; [| |cbn in Hrest; lia];
    reflexivity.
Qed.

Lemma GrayImage_init_unsupported x image :
  length (_media.image_load image) ∉ [1; 2; 3; 4]%nat ->
  GrayImage.__init__ x image GrayImage.fresh
  = (Raise (RuntimeError "Bug"),
     {| GrayImage._image := Some image; GrayImage.signal := None |}).
Proof.
  intros H.
  repeat (apply not_elem_of_cons in H as [? H]).
  unfold GrayImage.__init__, GrayImage.make, GrayImage._generate.
  unfold mbind, eff_bind, modify, get, lift, GrayImage.fresh. cbn.
  destruct (decide _) as [[?|?]|_]; [done|done|].
  destruct (decide _) as [[?|?]|_]; [done|done|].
  reflexivity.
Qed.

(** C2 (amended): for every decoded media source whose channel or plane
    count is outside the supported set (audio: not 1 and not 2; image: not
    in {1,2,3,4}), constructing MonoAudio or GrayImage fails with the
    generic [RuntimeError] whose message is "Bug". *)
Theorem unsupported_layout_is_RuntimeError
    (x : list Q) (audio : _media.Audio)
    (grid : list (list (Q * Q))) (image : _media.Image) :
  length (_media.load audio) <> 1%nat ->
  length (_media.load audio) <> 2%nat ->
  length (_media.image_load image) ∉ [1; 2; 3; 4]%nat ->
  MonoAudio.new x audio = Raise (RuntimeError "Bug") /\
  GrayImage.new grid image = Raise (RuntimeError "Bug").
Proof.
  intros H1 H2 H3. unfold MonoAudio.new, GrayImage.new.
  rewrite MonoAudio_init_unsupported, GrayImage_init_unsupported by done.
  done.
Qed.

Lemma unsupported_layout_is_RuntimeError_witness :
  MonoAudio.new [] (audio_of [[1]; [2]; [3]]%Z) = Raise (RuntimeError "Bug") /\
  GrayImage.new grid1 (image_of [[[1]]; [[2]]; [[3]]; [[4]]; [[5]]]%Z)
    = Raise (RuntimeError "Bug").
Proof.
  apply (unsupported_layout_is_RuntimeError [] (audio_of [[1]; [2]; [3]]%Z)
           grid1 (image_of [[[1]]; [[2]]; [[3]]; [[4]]; [[5]]]%Z)).
  - cbn. lia.
  - cbn. lia.
  - cbn. intros H.
    repeat (apply elem_of_cons in H as [H|H]; [discriminate H|]).
    by apply elem_of_nil in H.
Defined.

(** C2 as stated fails: audio with 3 channels and an image with 5 planes
    do not fail with the error kind [UnsupportedChannelLayout]. *)
Lemma three_channels_not_UnsupportedChannelLayout :
  MonoAudio.new [] (audio_of [[1]; [2]; [3]]%Z)
    <> Raise UnsupportedChannelLayout /\
  GrayImage.new grid1 (image_of [[[1]]; [[2]]; [[3]]; [[4]]; [[5]]]%Z)
    <> Raise UnsupportedChannelLayout.
Proof. split; discriminate. Qed.



(** C7: with one channel the signal of MonoAudio is that channel as it is;
    with two channels each output sample is [round((left + right) / 2)] of
    the samples at its index; [round] sends a tie to the even neighbour,
    whatever the samples, so that the stereo pair left=4, right=5 gives
    [round(4.5) = 4]. *)
Theorem MonoAudio_downmix :
  (forall x meta ch,
     MonoAudio.new x {| _media.metadata := meta; _media.channels := [ch] |}
     = Ok {| MonoAudio._audio := None;
             MonoAudio._bps := Some (_media.bps meta);
             MonoAudio.signal := Some ch |}) /\
  (forall x meta l r,
     MonoAudio.new x {| _media.metadata := meta; _media.channels := [l; r] |}
     = Ok {| MonoAudio._audio := None;
             MonoAudio._bps := Some (_media.bps meta);
             MonoAudio.signal :=
               Some (zip_with
                       (fun left right =>
                          py_round (inject_Z (left + right) / 2)) l r) |}) /\
  (forall k : Z,
     py_round (inject_Z k + (1 # 2)) = if Z.even k then k else (k + 1)%Z) /\
  (forall q : Q, Qabs (q - inject_Z (py_round q)) <= 1 # 2) /\
  py_round 4.5 = 4%Z /\
  MonoAudio.new [] (audio_of [[4]; [5]]%Z)
  = Ok {| MonoAudio._audio := None; MonoAudio._bps := Some 16%Z;
          MonoAudio.signal := Some [4%Z] |}.
Proof.
  split; [|split; [|split; [|split; [|split]]]]; try reflexivity.
  - intros. unfold MonoAudio.new. by rewrite MonoAudio_init_stereo.
  - apply py_round_tie.
  - apply py_round_nearest.
Qed.



(* ===================================================================== *)
(** * AudioChannel and ImageChannel *)
(* ===================================================================== *)

(** The instance that [AudioChannel.from_file] builds for channel [c]. *)
Lemma AudioChannel_make_channel x (cls : AudioChannel.namespace) buffer
    c bps ch :
  cls !! "_audio" = Some (Some buffer) ->
  buffer !! c = Some ch ->
  AudioChannel.make
    {| AudioChannel._id := Some c; AudioChannel._bps := bps;
       AudioChannel.signal := None |} x cls
  = (Ok {| AudioChannel._id := Some c; AudioChannel._bps := bps;
           AudioChannel.signal := Some ch |}, cls).
Proof.
  intros Hcls Hc. unfold AudioChannel.make, AudioChannel._generate.
  unfold mbind, eff_bind, get, lift. rewrite Hcls. cbn.
  by rewrite (getitem_Some _ _ _ Hc).
Qed.

Lemma AudioChannel_from_file_run x audio (cls : AudioChannel.namespace) :
  AudioChannel.from_file x audio cls
  = (Ok (imap (fun c ch =>
                 {| AudioChannel._id := Some c;
                    AudioChannel._bps :=
                      Some (_media.bps (_media.metadata audio));
                    AudioChannel.signal := Some ch |}) (_media.load audio)),
     <["_audio" := None]> (<["_audio" := Some (_media.load audio)]> cls)).
Proof.
  unfold AudioChannel.from_file.
  unfold mbind at 1, eff_bind at 1, modify at 1.
  unfold mbind at 1, eff_bind at 1, get at 1.
  unfold mbind at 1, eff_bind at 1, lift at 1.
  rewrite lookup_insert_eq.
  unfold mbind at 1, eff_bind at 1.
  rewrite (mapM_eff_Ok _
    (fun a => {| AudioChannel._id := Some a.1;
                 AudioChannel._bps := Some (_media.bps (_media.metadata audio));
                 AudioChannel.signal := Some a.2 |})).
  - rewrite fmap_imap. reflexivity.
  - intros [c ch] Hin.
    apply elem_of_lookup_imap_1 in Hin as (i & y & [= -> ->] & Hi).
    apply AudioChannel_make_channel with (buffer := _media.load audio);
      [apply lookup_insert_eq|exact Hi].
Qed.

Lemma ImageChannel_make_channel x (cls : ImageChannel.namespace) buffer
    c plane :
  cls !! "_image" = Some (Some buffer) ->
  buffer !! c = Some plane ->
  ImageChannel.make
    {| ImageChannel._id := Some c; ImageChannel.signal := None |} x cls
  = (Ok {| ImageChannel._id := Some c;
           ImageChannel.signal := Some plane |}, cls).
Proof.
  intros Hcls Hc. unfold ImageChannel.make, ImageChannel._generate.
  unfold mbind, eff_bind, get, lift. rewrite Hcls. cbn.
  by rewrite (getitem_Some _ _ _ Hc).
Qed.

Lemma ImageChannel_from_file_run x image (cls : ImageChannel.namespace) :
  ImageChannel.from_file x image cls
  = (Ok (imap (fun c plane =>
                 {| ImageChannel._id := Some c;
                    ImageChannel.signal := Some plane |})
           (_media.image_load image)),
     <["_audio" := None]>
       (<["_image" := Some (_media.image_load image)]> cls)).
Proof.
  unfold ImageChannel.from_file.
  unfold mbind at 1, eff_bind at 1, modify at 1.
  unfold mbind at 1, eff_bind at 1, get at 1.
  unfold mbind at 1, eff_bind at 1, lift at 1.
  rewrite lookup_insert_eq.
  unfold mbind at 1, eff_bind at 1.
  rewrite (mapM_eff_Ok _
    (fun a => {| ImageChannel._id := Some a.1;
                 ImageChannel.signal := Some a.2 |})).
  - rewrite fmap_imap. reflexivity.
  - intros [c plane] Hin.
    apply elem_of_lookup_imap_1 in Hin as (i & y & [= -> ->] & Hi).
    apply ImageChannel_make_channel
      with (buffer := _media.image_load image);
      [apply lookup_insert_eq|exact Hi].
Qed.

(** C5: during [from_file] the decoded buffer is bound to an attribute of
    the class, from which every instance reads its slice.  When
    [AudioChannel.from_file] returns, the class attribute [_audio] is
    [None]; when [ImageChannel.from_file] returns, the class attribute
    [_image] still holds the decoded planes: its last assignment binds
    [_audio], not [_image]. *)
Theorem ImageChannel_buffer_not_dropped
    (x : list Q) (audio : _media.Audio) (acls : AudioChannel.namespace)
    (grid : list (list (Q * Q))) (image : _media.Image)
    (icls : ImageChannel.namespace) :
  snd (AudioChannel.from_file x audio acls) !! "_audio" = Some None /\
  snd (ImageChannel.from_file grid image icls) !! "_image"
    = Some (Some (_media.image_load image)) /\
  snd (ImageChannel.from_file grid image icls) !! "_audio" = Some None.
Proof.
  rewrite AudioChannel_from_file_run, ImageChannel_from_file_run. cbn.
  split; [apply lookup_insert_eq|].
  split; [|apply lookup_insert_eq].
  rewrite lookup_insert_ne by done. apply lookup_insert_eq.
Qed.

(** The same on a one-plane, one-pixel image, from the namespace that the
    class body creates. *)
Example ImageChannel_one_pixel :
  snd (ImageChannel.from_file grid1 (image_of [[[7%Z]]])
         ImageChannel.class_body) !! "_image"
  = Some (Some [[[7%Z]]]).
Proof. vm_compute. reflexivity. Qed.

(** C6: for every decoded audio source with K channels,
    [AudioChannel.from_file] returns K instances, and for every [c] the
    [c]-th instance has channel index [c], the sample resolution of the
    source, and the [c]-th decoded channel as its signal. *)
Theorem AudioChannel_split_identity
    (x : list Q) (audio : _media.Audio) (cls : AudioChannel.namespace) :
  exists chans,
    fst (AudioChannel.from_file x audio cls) = Ok chans /\
    length chans = length (_media.load audio) /\
    forall c : nat,
      chans !! c =
      (fun ch => {| AudioChannel._id := Some c;
                    AudioChannel._bps :=
                      Some (_media.bps (_media.metadata audio));
                    AudioChannel.signal := Some ch |})
        <$> _media.load audio !! c.
Proof.
  rewrite AudioChannel_from_file_run. eexists. split; [reflexivity|].
  split; [apply length_imap|]. intros c. apply list_lookup_imap.
Qed.

Example AudioChannel_three_channels :
  fst (AudioChannel.from_file [] (audio_of [[1; 2]; [3; 4]; [5; 6]]%Z)
         AudioChannel.class_body)
  = Ok [ {| AudioChannel._id := Some 0%nat; AudioChannel._bps := Some 16%Z;
            AudioChannel.signal := Some [1; 2]%Z |};
         {| AudioChannel._id := Some 1%nat; AudioChannel._bps := Some 16%Z;
            AudioChannel.signal := Some [3; 4]%Z |};
         {| AudioChannel._id := Some 2%nat; AudioChannel._bps := Some 16%Z;
            AudioChannel.signal := Some [5; 6]%Z |} ].
Proof. reflexivity. Qed.

(* ===================================================================== *)
(** * Further properties of the 1-D closed-form signals *)
(* ===================================================================== *)


(** X1: whatever its parameters, Pulse1D returns a signal of the length of
    the domain, and every sample of it is the amplitude [a] or [0]. *)
Theorem Pulse1D_two_valued (self : Pulse1D.t) (x : list Q) :
  exists y,
    Pulse1D._generate self x = Ok y /\
    length y = length x /\
    Forall (fun v => v = Pulse1D.a self \/ v = 0) y.
Proof.
  eexists. split; [apply Pulse1D_generate_map|].
  split; [apply length_fmap|].
  apply Forall_fmap, Forall_forall. intros v _. cbn.
  destruct (_ && _); auto.
Qed.





Lemma mapM_result_const {A B} (b : B) (l : list A) :
  mapM (M := result) (fun _ => Ok b) l = Ok (replicate (length l) b).
Proof.
  rewrite (mapM_result_Ok _ (fun _ => b)) by done.
  f_equal. by apply const_fmap.
Qed.

(** X5: Const1D is [k] at every index of the domain.  Const2D reads only
    the number of rows of the grid and the length of its first row: its
    signal has that shape and is [k] everywhere, whatever the other rows
    hold. *)
Theorem Const_everywhere (k : Q) (x : list Q)
    (row0 : list (Q * Q)) (rows : list (list (Q * Q))) :
  Const1D._generate {| Const1D.k := k |} x = Ok (replicate (length x) k) /\
  Const2D._generate {| Const2D.k := k |} (row0 :: rows)
  = Ok (replicate (S (length rows)) (replicate (length row0) k)).
Proof.
  split.
  - unfold Const1D._generate, _mtx.vec_new. cbn [Const1D.k].
    change (mret k) with (Ok (A := Q) k).
    by rewrite mapM_result_const, length_seq.
  - unfold Const2D._generate, _mtx.mat_new. cbn [Const2D.k].
    change (getitem (row0 :: rows) 0) with (Ok row0).
    cbn [mbind result_bind length].
    change (mret k) with (Ok (A := Q) k).
    rewrite (mapM_result_Ok _ (fun _ => replicate (length row0) k)).
    + f_equal. rewrite (const_fmap _ _ (replicate (length row0) k)) by done.
      by rewrite length_seq.
    + intros n _. by rewrite mapM_result_const, length_seq.
Qed.

(* ===================================================================== *)
(** * Further properties of the 2-D closed-form signals *)
(* ===================================================================== *)



(** When one error is the only one that [f] can raise, a sequence of
    calls with a failing call raises it. *)
Lemma mapM_result_single_error {A B} (f : A -> result B) (e : exn)
    (l : list A) :
  (forall a, a ∈ l -> f a = Raise e \/ exists b, f a = Ok b) ->
  (exists a, a ∈ l /\ f a = Raise e) ->
  mapM f l = Raise e.
Proof.
  induction l as [|a l IH]; intros Hall (a0 & Hin & Hfail).
  - by apply elem_of_nil in Hin.
  - rewrite mapM_result_cons.
    destruct (Hall a (list_elem_of_here _ _)) as [->|[b Hb]]; [reflexivity|].
    rewrite Hb, IH; [reflexivity| |].
    + intros a' Ha'. apply Hall. by apply list_elem_of_further.
    + apply elem_of_cons in Hin as [->|Hin]; [congruence|]. eauto.
Qed.

Lemma mapM_result_error_from {A B} (f : A -> result B) (e : exn)
    (l : list A) :
  mapM f l = Raise e -> exists a, a ∈ l /\ f a = Raise e.
Proof.
  induction l as [|a l IH]; [discriminate|].
  rewrite mapM_result_cons.
  destruct (f a) as [b|e'] eqn:Ea.
  - destruct (mapM f l) as [k|e''] eqn:El; [discriminate|].
    intros [= ->]. destruct (IH eq_refl) as (a' & Hin & Ha').
    exists a'. split; [by apply list_elem_of_further|done].
  - intros [= ->]. exists a. split; [apply list_elem_of_here|done].
Qed.

(** Reading a row up to a length that the row does not have. *)
Lemma read_short_row {A B} (h : A -> B) (row : list A) (cols : nat) :
  (length row < cols)%nat ->
  mapM (M := result) (fun m => p ← getitem row m; mret (h p)) (seq 0 cols)
  = Raise IndexError.
Proof.
  intros Hlen. apply mapM_result_single_error.
  - intros m _. unfold getitem. destruct (row !! m); [right|left]; eauto.
  - exists (length row). split; [apply elem_of_seq; lia|].
    unfold getitem. by rewrite (lookup_ge_None_2 row (length row)).
Qed.

(** X7: on a grid one of whose rows is shorter than the first row,
    Pulse2D raises [IndexError]. *)
Theorem Pulse2D_short_row (self : Pulse2D.t)
    (row0 : list (Q * Q)) (rows : list (list (Q * Q)))
    (n : nat) (row : list (Q * Q)) :
  rows !! n = Some row ->
  (length row < length row0)%nat ->
  Pulse2D._generate self (row0 :: rows) = Raise IndexError.
Proof.
  intros Hn Hlen. unfold Pulse2D._generate.
  change (getitem (row0 :: rows) 0) with (Ok row0).
  cbn [mbind result_bind]. unfold _mtx.mat_new.
  set (h := fun p : Q * Q =>
    if Pulse2D.inbox
         ((Pulse2D.xo self).1 - (Pulse2D.w self).1 / 2)
         ((Pulse2D.xo self).1 + (Pulse2D.w self).1 / 2)
         ((Pulse2D.xo self).2 - (Pulse2D.w self).2 / 2)
         ((Pulse2D.xo self).2 + (Pulse2D.w self).2 / 2) p
    then Pulse2D.a self else 0).
  assert (Hrow : forall i,
    mapM (M := result)
      (fun m => r ← getitem (row0 :: rows) i; p ← getitem r m; mret (h p))
      (seq 0 (length row0)) = Raise IndexError \/
    exists b, mapM (M := result)
      (fun m => r ← getitem (row0 :: rows) i; p ← getitem r m; mret (h p))
      (seq 0 (length row0)) = Ok b).
  { intros i. destruct (mapM _ _) as [b|e] eqn:E; [eauto|left].
    apply mapM_result_error_from in E as (m & _ & Hm).
    unfold getitem in Hm.
    destruct ((row0 :: rows) !! i) as [r|]; [|by inversion Hm].
    cbn in Hm. destruct (r !! m); by inversion Hm. }
  apply mapM_result_single_error; [intros i _; apply Hrow|].
  exists (S n). split; [apply elem_of_seq; cbn;
                         apply lookup_lt_Some in Hn; lia|].
  rewrite (getitem_Some (row0 :: rows) (S n) row Hn).
  cbn [mbind result_bind]. by apply (read_short_row h row).
Qed.

Lemma Pulse2D_short_row_witness :
  Pulse2D._generate
    {| Pulse2D.xo := (0, 0); Pulse2D.w := (1, 1); Pulse2D.a := 1 |}
    [[(0, 0); (0, 1)]; [(1, 0)]] = Raise IndexError.
Proof.
  apply (Pulse2D_short_row
           {| Pulse2D.xo := (0, 0); Pulse2D.w := (1, 1); Pulse2D.a := 1 |}
           [(0, 0); (0, 1)] [[(1, 0)]] 0 [(1, 0)]).
  - reflexivity.
  - cbn. lia.
Defined.

(* ===================================================================== *)
(** * Empty domains *)
(* ===================================================================== *)

Lemma mapM_eff_const_Ok {S A B} (b : B) (l : list A) (s : S) :
  mapM (M := eff S) (fun _ => mret b) l s = (Ok (replicate (length l) b), s).
Proof.
  rewrite (mapM_eff_Ok _ (fun _ => b)) by done.
  f_equal. f_equal. by apply const_fmap.
Qed.

(** X8: over the empty 1-D domain a 1-D generator returns the empty signal
    and evaluates nothing: Gaussian1D does so even with deviation [0], and
    Noise1D even with a key that the registry lacks, without calling a
    primitive.  Over the empty 2-D grid every 2-D generator raises
    [IndexError], Noise2D before any draw.  Over a grid whose first row is
    empty, a 2-D generator returns one empty row per row of the grid, and
    Noise2D draws nothing. *)
Theorem empty_domains {St} (call : _stat.rng -> kwargs -> eff St Q)
    (exp : Q -> Q) (p1 : Pulse1D.t) (g1 : Gaussian1D.t)
    (p2 : Pulse2D.t) (g2 : Gaussian2D.t) (k : Q)
    (pdf : string) (params : option kwargs) (s : St)
    (rows : list (list (Q * Q))) :
  (Pulse1D._generate p1 [] = Ok [] /\
   Gaussian1D._generate exp g1 [] = Ok [] /\
   Const1D._generate {| Const1D.k := k |} [] = Ok [] /\
   Noise1D.__init__ call [] pdf params s
   = (Ok {| Noise1D.pdf := pdf; Noise1D.pdf_params := params;
            Noise1D.signal := Some [] |}, s)) /\
  (Pulse2D._generate p2 [] = Raise IndexError /\
   Gaussian2D._generate exp g2 [] = Raise IndexError /\
   Const2D._generate {| Const2D.k := k |} [] = Raise IndexError /\
   Noise2D.__init__ call [] pdf params s = (Raise IndexError, s)) /\
  (Pulse2D._generate p2 ([] :: rows)
   = Ok (replicate (S (length rows)) []) /\
   Gaussian2D._generate exp g2 ([] :: rows)
   = Ok (replicate (S (length rows)) []) /\
   Noise2D.__init__ call ([] :: rows) pdf params s
   = (Ok {| Noise2D.pdf := pdf; Noise2D.pdf_params := params;
            Noise2D.signal := Some (replicate (S (length rows)) []) |}, s)).
Proof.
  split; [by repeat split|]. split; [by repeat split|].
  assert (Hseq : forall n, length (seq 1 n) = n)
    by (intros n; apply length_seq).
  split; [|split].
  - unfold Pulse2D._generate, _mtx.mat_new. cbn.
    change (mapM (M := result) _ (seq 1 (length rows)))
      with (mapM (M := result) (fun _ : nat => Ok (@nil Q))
              (seq 1 (length rows))).
    by rewrite mapM_result_const, Hseq.
  - unfold Gaussian2D._generate, _mtx.mat_new. cbn.
    change (mapM (M := result) _ (seq 1 (length rows)))
      with (mapM (M := result) (fun _ : nat => Ok (@nil Q))
              (seq 1 (length rows))).
    by rewrite mapM_result_const, Hseq.
  - unfold Noise2D.__init__, Noise2D.make, Noise2D._generate, _mtx.mat_new.
    unfold mbind at 1, eff_bind at 1.
    unfold mbind at 1, eff_bind at 1.
    change (lift (getitem ([] :: rows) 0) s)
      with (Ok (@nil (Q * Q)), s).
    cbn [length seq]. rewrite mapM_eff_cons.
    change (mapM (M := eff St) _ [] s) with (Ok (@nil Q), s).
    cbv beta iota zeta.
    change (mapM (M := eff St) _ (seq 1 (length rows)) s)
      with (mapM (M := eff St) (fun _ : nat => mret (@nil Q))
              (seq 1 (length rows)) s).
    rewrite mapM_eff_const_Ok, Hseq. reflexivity.
Qed.

(* ===================================================================== *)
(** * Gaussian1D and Gaussian2D *)
(* ===================================================================== *)















(* ===================================================================== *)
(** * Further properties of the noise signals *)
(* ===================================================================== *)

Lemma or_empty_default (params : option kwargs) :
  RNGMixin.or_empty params = default ∅ params.
Proof.
  destruct params as [d|]; [|reflexivity]. cbn.
  by destruct (decide (d = ∅)) as [->|].
Qed.

(** X12: for a key of the registry, every draw calls the selected
    primitive with exactly the entries of [pdf_params] as keyword
    arguments, whatever they are: the dictionary is not inspected,
    completed or validated, and the empty dictionary is passed like
    [None], as no arguments. *)
Theorem noise_forwards_params {St}
    (call : _stat.rng -> kwargs -> eff St Q) (pdf : string) (g : _stat.rng)
    (params : option kwargs) (x : list Q)
    (row0 : list (Q * Q)) (grid : list (list (Q * Q))) :
  RNGMixin.dist !! pdf = Some g ->
  Noise1D.__init__ call x pdf params =
    (y ← _mtx.vec_new (length x) (fun _ => call g (default ∅ params));
     mret {| Noise1D.pdf := pdf; Noise1D.pdf_params := params;
             Noise1D.signal := Some y |}) /\
  Noise2D.__init__ call (row0 :: grid) pdf params =
    (y ← _mtx.mat_new (S (length grid)) (length row0)
           (fun _ _ => call g (default ∅ params));
     mret {| Noise2D.pdf := pdf; Noise2D.pdf_params := params;
             Noise2D.signal := Some y |}).
Proof.
  intros Hg. rewrite <- or_empty_default. split.
  - unfold Noise1D.__init__, Noise1D.make, Noise1D._generate.
    cbn [Noise1D.pdf Noise1D.pdf_params].
    unfold RNGMixin.subscript. rewrite Hg. reflexivity.
  - unfold Noise2D.__init__, Noise2D.make, Noise2D._generate.
    cbn [Noise2D.pdf Noise2D.pdf_params].
    unfold RNGMixin.subscript. rewrite Hg. reflexivity.
Qed.

Lemma noise_forwards_params_witness :
  Noise1D.__init__ demanding_rng [0; 1] "uniform"
    (Some {[ "a" := VNum 3; "b" := VNum 4 ]}) =
    (y ← _mtx.vec_new 2
           (fun _ => demanding_rng _stat.rng_uniform
                       (default ∅ (Some {[ "a" := VNum 3; "b" := VNum 4 ]})));
     mret {| Noise1D.pdf := "uniform";
             Noise1D.pdf_params := Some {[ "a" := VNum 3; "b" := VNum 4 ]};
             Noise1D.signal := Some y |}) /\
  Noise2D.__init__ demanding_rng grid1 "uniform"
    (Some {[ "a" := VNum 3; "b" := VNum 4 ]}) =
    (y ← _mtx.mat_new 1 1
           (fun _ _ => demanding_rng _stat.rng_uniform
                         (default ∅ (Some {[ "a" := VNum 3; "b" := VNum 4 ]})));
     mret {| Noise2D.pdf := "uniform";
             Noise2D.pdf_params := Some {[ "a" := VNum 3; "b" := VNum 4 ]};
             Noise2D.signal := Some y |}).
Proof.
  apply (noise_forwards_params demanding_rng "uniform" _stat.rng_uniform
           (Some {[ "a" := VNum 3; "b" := VNum 4 ]}) [0; 1] [(0, 0)] []).
  reflexivity.
Defined.

Lemma mapM_eff_app {S A B} (f : A -> eff S B) (l1 l2 : list A) (s : S) :
  mapM f (l1 ++ l2) s =
  match mapM f l1 s with
  | (Ok y1, s1) =>
      match mapM f l2 s1 with
      | (Ok y2, s2) => (Ok (y1 ++ y2), s2)
      | (Raise e, s2) => (Raise e, s2)
      end
  | (Raise e, s1) => (Raise e, s1)
  end.
Proof.
  revert s. induction l1 as [|a l1 IH]; intros s.
  - cbn [app]. change (mapM f [] s) with (Ok (@nil B), s).
    cbv beta iota. by destruct (mapM f l2 s) as [[y2|e] s2].
  - cbn [app]. rewrite !mapM_eff_cons.
    destruct (f a s) as [[b|e] s0]; [|reflexivity].
    rewrite IH. destruct (mapM f l1 s0) as [[y1|e] s1]; [|reflexivity].
    by destruct (mapM f l2 s1) as [[y2|e] s2].
Qed.

Lemma mapM_eff_const_length {S A A' B} (c : eff S B)
    (l : list A) (l' : list A') :
  length l = length l' ->
  mapM (fun _ => c) l = mapM (fun _ => c) l'.
Proof.
  revert l'. induction l as [|a l IH]; intros [|a' l'] Hlen;
    try discriminate; [reflexivity|].
  injection Hlen as Hlen.
  change (mapM (fun _ : A => c) (a :: l))
    with (y ← c; k ← mapM (fun _ : A => c) l; mret (y :: k)).
  by rewrite (IH l' Hlen).
Qed.

(** X13: Noise1D draws its samples in index order, each draw continuing
    from the state of the random sources that the previous draw left:
    generating over a domain [x ++ x'] is generating over [x], then over
    [x'] from the state reached, and concatenating; a failure in either
    part is the failure of the whole, with the state that the failing
    call left and without any later draw. *)
Theorem Noise1D_draws_in_sequence {St}
    (call : _stat.rng -> kwargs -> eff St Q) (self : Noise1D.t)
    (x x' : list Q) (s : St) :
  Noise1D._generate call self (x ++ x') s =
  match Noise1D._generate call self x s with
  | (Ok y, s1) =>
      match Noise1D._generate call self x' s1 with
      | (Ok y', s2) => (Ok (y ++ y'), s2)
      | (Raise e, s2) => (Raise e, s2)
      end
  | (Raise e, s1) => (Raise e, s1)
  end.
Proof.
  unfold Noise1D._generate, _mtx.vec_new.
  rewrite length_app, seq_app, mapM_eff_app.
  by rewrite (mapM_eff_const_length _ (seq (0 + length x) (length x'))
                (seq 0 (length x'))) by by rewrite !length_seq.
Qed.

(* ===================================================================== *)
(** * Rounding, the downmix and the luma *)
(* ===================================================================== *)

Lemma py_round_floor_or_next (q : Q) :
  py_round q = Qfloor q \/ py_round q = (Qfloor q + 1)%Z.
Proof.
  unfold py_round.
  destruct (Qcompare _ _); [destruct (Z.even _)| |]; auto.
Qed.

(** An integer is its own rounding. *)
Lemma py_round_Z (z : Z) : py_round (inject_Z z) = z.
Proof.
  unfold py_round. rewrite Qfloor_Z.
  assert (E : Qcompare (inject_Z z - inject_Z z) (1 # 2) = Lt).
  { apply (proj1 (Qlt_alt _ _)). lra. }
  by rewrite E.
Qed.

(** Rounding is monotone. *)
Lemma py_round_le (q q' : Q) : q <= q' -> (py_round q <= py_round q')%Z.
Proof.
  intros Hle.
  pose proof (Qfloor_resp_le _ _ Hle) as Hfl.
  destruct (Z.eq_dec (Qfloor q) (Qfloor q')) as [Heq|Hne].
  - unfold py_round. rewrite <- Heq.
    destruct (Qcompare_spec (q - inject_Z (Qfloor q)) (1 # 2)) as [E|E|E];
      destruct (Qcompare_spec (q' - inject_Z (Qfloor q)) (1 # 2))
        as [E'|E'|E'];
      try destruct (Z.even (Qfloor q)); try lia; exfalso; lra.
  - destruct (py_round_floor_or_next q) as [->| ->],
      (py_round_floor_or_next q') as [->| ->]; lia.
Qed.

Lemma py_round_between (lo hi : Z) (q : Q) :
  inject_Z lo <= q -> q <= inject_Z hi -> (lo <= py_round q <= hi)%Z.
Proof.
  intros H1 H2. apply py_round_le in H1, H2.
  by rewrite py_round_Z in H1, H2.
Qed.

Lemma inject_Z_le (a b : Z) : (a <= b)%Z -> inject_Z a <= inject_Z b.
Proof. intros H. by rewrite <- Zle_Qle. Qed.

Lemma mean_between (lo hi l r : Z) :
  (lo <= l <= hi)%Z -> (lo <= r <= hi)%Z ->
  (lo <= MonoAudio.mean l r <= hi)%Z.
Proof.
  intros [Hl1 Hl2] [Hr1 Hr2]. unfold MonoAudio.mean.
  apply inject_Z_le in Hl1, Hl2, Hr1, Hr2.
  apply py_round_between; rewrite inject_Z_plus;
    (apply Qle_shift_div_l || apply Qle_shift_div_r); try reflexivity; lra.
Qed.

(** X14: the downmix [round((l + r) / 2)] of two samples lies between
    them, does not depend on their order, and is the sample itself when
    both are equal; so the downmix of a stereo source whose two channels
    are identical is that channel. *)
Theorem downmix_between_channels (l r : Z) (x : list Q)
    (meta : _media.AudioMetadata) (ch : list Z) :
  (Z.min l r <= MonoAudio.mean l r <= Z.max l r)%Z /\
  MonoAudio.mean l r = MonoAudio.mean r l /\
  MonoAudio.mean l l = l /\
  MonoAudio.new x
    {| _media.metadata := meta; _media.channels := [ch; ch] |}
  = Ok {| MonoAudio._audio := None;
          MonoAudio._bps := Some (_media.bps meta);
          MonoAudio.signal := Some ch |}.
Proof.
  assert (Hsame : forall v, MonoAudio.mean v v = v).
  { intros v. pose proof (mean_between v v v v). lia. }
  split; [apply mean_between; lia|].
  split; [unfold MonoAudio.mean; by rewrite Z.add_comm|].
  split; [apply Hsame|].
  unfold MonoAudio.new. rewrite MonoAudio_init_stereo.
  rewrite zip_with_diag.
  rewrite (list_fmap_ext _ (fun v => v) ch) by (intros; apply Hsame).
  by rewrite list_fmap_id.
Qed.

Lemma weighted_between (lo hi r g b : Z) :
  (lo <= r <= hi)%Z -> (lo <= g <= hi)%Z -> (lo <= b <= hi)%Z ->
  (lo <= GrayImage.weighted r g b <= hi)%Z.
Proof.
  intros [Hr1 Hr2] [Hg1 Hg2] [Hb1 Hb2]. unfold GrayImage.weighted.
  apply inject_Z_le in Hr1, Hr2, Hg1, Hg2, Hb1, Hb2.
  apply py_round_between; lra.
Qed.

(** X15: the luma [round(0.2126*r + 0.7152*g + 0.0722*b)] of a pixel
    stays within every range that holds its three components: an 8-bit
    pixel has an 8-bit luma. *)
Theorem luma_within_range (lo hi r g b : Z) :
  (lo <= r <= hi)%Z -> (lo <= g <= hi)%Z -> (lo <= b <= hi)%Z ->
  (lo <= GrayImage.weighted r g b <= hi)%Z /\
  GrayImage.luma [r; g; b] = Ok (GrayImage.weighted r g b).
Proof. intros. split; [by apply weighted_between|reflexivity]. Qed.

Lemma luma_within_range_witness :
  (0 <= GrayImage.weighted 255 0 128 <= 255)%Z /\
  GrayImage.luma [255; 0; 128]%Z = Ok (GrayImage.weighted 255 0 128).
Proof. apply (luma_within_range 0 255 255 0 128); lia. Defined.

Lemma per_sample3_diag {A B} (f : A -> A -> A -> B) (v : list A) :
  per_sample3 f v v v = (fun a => f a a a) <$> v.
Proof.
  unfold per_sample3. rewrite zip_diag, zip_with_fmap_r, zip_with_diag.
  reflexivity.
Qed.

Lemma per_pixel3_diag {A B} (f : A -> A -> A -> B) (m : list (list A)) :
  per_pixel3 f m m m = map (map (fun a => f a a a)) m.
Proof.
  unfold per_pixel3. rewrite zip_diag, zip_with_fmap_r, zip_with_diag.
  apply list_fmap_ext. intros i row _. cbn. apply per_sample3_diag.
Qed.

(** X16: the three weights add up to one, so the luma of a pixel whose
    three components are equal is that component, and a colour image
    whose three planes are identical (a gray image stored as RGB or RGBA)
    is converted to that plane, unchanged. *)
Theorem GrayImage_of_gray_rgb (v : Z) (x : list (list (Q * Q)))
    (size : Z * Z) (plane alpha : list (list Z)) :
  GrayImage.weighted v v v = v /\
  GrayImage.new x
    {| _media.image_size := size; _media.planes := [plane; plane; plane] |}
  = Ok {| GrayImage._image := None; GrayImage.signal := Some plane |} /\
  GrayImage.new x
    {| _media.image_size := size;
       _media.planes := [plane; plane; plane; alpha] |}
  = Ok {| GrayImage._image := None; GrayImage.signal := Some plane |}.
Proof.
  assert (Hsame : forall z, GrayImage.weighted z z z = z).
  { intros z. pose proof (weighted_between z z z z z). lia. }
  assert (Hplane : per_pixel3 GrayImage.weighted plane plane plane = plane).
  { rewrite per_pixel3_diag.
    rewrite (list_fmap_ext _ (fun row => row) plane);
      [apply list_fmap_id|].
    intros i row _.
    rewrite (list_fmap_ext _ (fun z => z) row) by (intros; apply Hsame).
    apply list_fmap_id. }
  split; [apply Hsame|].
  unfold GrayImage.new.
  rewrite !GrayImage_init_colour by (cbn; lia).
  by rewrite Hplane.
Qed.

(** X17: a grayscale image (one plane, or luma and alpha) is converted to
    its plane 0 as it is: no rounding is applied, the alpha plane is
    ignored and the source is released. *)
Theorem GrayImage_passes_luma_plane (x : list (list (Q * Q)))
    (size : Z * Z) (plane alpha : list (list Z)) :
  GrayImage.new x {| _media.image_size := size; _media.planes := [plane] |}
  = Ok {| GrayImage._image := None; GrayImage.signal := Some plane |} /\
  GrayImage.new x
    {| _media.image_size := size; _media.planes := [plane; alpha] |}
  = Ok {| GrayImage._image := None; GrayImage.signal := Some plane |}.
Proof.
  unfold GrayImage.new.
  by rewrite !GrayImage_init_gray by (cbn; lia).
Qed.

(* ===================================================================== *)
(** * Further properties of the channel splits *)
(* ===================================================================== *)

(** X18: for every decoded image with K planes, [ImageChannel.from_file]
    returns K instances, and for every [c] the [c]-th instance has channel
    number [c] and the [c]-th decoded plane as its signal. *)
Theorem ImageChannel_split_identity
    (x : list (list (Q * Q))) (image : _media.Image)
    (cls : ImageChannel.namespace) :
  exists chans,
    fst (ImageChannel.from_file x image cls) = Ok chans /\
    length chans = length (_media.image_load image) /\
    (forall c : nat,
       ImageChannel.id <$> chans !! c
       = (fun _ => Some c) <$> _media.image_load image !! c) /\
    (forall c : nat,
       ImageChannel.signal <$> chans !! c
       = Some <$> _media.image_load image !! c).
Proof.
  rewrite ImageChannel_from_file_run. eexists. split; [reflexivity|].
  split; [apply length_imap|].
  split; intros c; rewrite list_lookup_imap;
    by destruct (_media.image_load image !! c).
Qed.

(** X19: [from_file] writes no class attribute other than the holder of
    the decoded buffer ([_audio], and for ImageChannel [_image] and
    [_audio]), and the instances it returns do not depend on what the
    class attributes held before the call. *)
Theorem from_file_frame (x : list Q) (audio : _media.Audio)
    (acls acls' : AudioChannel.namespace)
    (grid : list (list (Q * Q))) (image : _media.Image)
    (icls icls' : ImageChannel.namespace) (attr : string) :
  attr <> "_audio" -> attr <> "_image" ->
  snd (AudioChannel.from_file x audio acls) !! attr = acls !! attr /\
  snd (ImageChannel.from_file grid image icls) !! attr = icls !! attr /\
  fst (AudioChannel.from_file x audio acls)
  = fst (AudioChannel.from_file x audio acls') /\
  fst (ImageChannel.from_file grid image icls)
  = fst (ImageChannel.from_file grid image icls').
Proof.
  intros Ha Hi.
  rewrite !AudioChannel_from_file_run, !ImageChannel_from_file_run. cbn.
  by rewrite !lookup_insert_ne by done.
Qed.

Lemma from_file_frame_witness :
  snd (AudioChannel.from_file [] (audio_of [[1]; [2]]%Z)
         (<["other" := Some [[9%Z]]]> AudioChannel.class_body)) !! "other"
  = (<["other" := Some [[9%Z]]]> AudioChannel.class_body) !! "other" /\
  snd (ImageChannel.from_file grid1 (image_of [[[7%Z]]])
         ImageChannel.class_body) !! "other"
  = ImageChannel.class_body !! "other" /\
  fst (AudioChannel.from_file [] (audio_of [[1]; [2]]%Z)
         (<["other" := Some [[9%Z]]]> AudioChannel.class_body))
  = fst (AudioChannel.from_file [] (audio_of [[1]; [2]]%Z)
           AudioChannel.class_body) /\
  fst (ImageChannel.from_file grid1 (image_of [[[7%Z]]])
         ImageChannel.class_body)
  = fst (ImageChannel.from_file grid1 (image_of [[[7%Z]]]) ∅).
Proof.
  apply (from_file_frame [] (audio_of [[1]; [2]]%Z)
           (<["other" := Some [[9%Z]]]> AudioChannel.class_body)
           AudioChannel.class_body
           grid1 (image_of [[[7%Z]]]) ImageChannel.class_body ∅ "other");
    discriminate.
Defined.

(** X20: an AudioChannel can generate its signal only inside
    [from_file]: before any call (the class body binds [_audio] to
    [None]) and after [from_file] has returned, [make] raises [TypeError]
    on every instance.  After [ImageChannel.from_file] has returned, an
    instance whose number [c] is that of a plane of the image last split
    still generates that plane. *)
Theorem make_outside_from_file (x x' : list Q) (audio : _media.Audio)
    (acls : AudioChannel.namespace) (aself : AudioChannel.t)
    (grid grid' : list (list (Q * Q))) (image : _media.Image)
    (icls : ImageChannel.namespace) (c : nat) (plane : list (list Z))
    (sig : option (list (list Z))) :
  _media.image_load image !! c = Some plane ->
  fst (AudioChannel.make aself x' AudioChannel.class_body) = Raise TypeError /\
  fst (AudioChannel.make aself x'
         (snd (AudioChannel.from_file x audio acls))) = Raise TypeError /\
  fst (ImageChannel.make
         {| ImageChannel._id := Some c; ImageChannel.signal := sig |} grid'
         (snd (ImageChannel.from_file grid image icls)))
  = Ok {| ImageChannel._id := Some c; ImageChannel.signal := Some plane |}.
Proof.
  intros Hc. split; [reflexivity|].
  rewrite AudioChannel_from_file_run, ImageChannel_from_file_run. cbn [snd].
  split.
  - unfold AudioChannel.make, AudioChannel._generate.
    unfold mbind, eff_bind, get, lift. by rewrite lookup_insert_eq.
  - unfold ImageChannel.make, ImageChannel._generate.
    unfold mbind, eff_bind, get, lift.
    rewrite lookup_insert_ne by done. rewrite lookup_insert_eq. cbn.
    by rewrite (getitem_Some _ _ _ Hc).
Qed.

Lemma make_outside_from_file_witness :
  fst (AudioChannel.make AudioChannel.__init__ [] AudioChannel.class_body)
  = Raise TypeError /\
  fst (AudioChannel.make AudioChannel.__init__ []
         (snd (AudioChannel.from_file [] (audio_of [[1]; [2]]%Z)
                 AudioChannel.class_body))) = Raise TypeError /\
  fst (ImageChannel.make
         {| ImageChannel._id := Some 0%nat; ImageChannel.signal := None |}
         grid1
         (snd (ImageChannel.from_file grid1 (image_of [[[7%Z]]])
                 ImageChannel.class_body)))
  = Ok {| ImageChannel._id := Some 0%nat;
          ImageChannel.signal := Some [[7%Z]] |}.
Proof.
  apply (make_outside_from_file [] [] (audio_of [[1]; [2]]%Z)
           AudioChannel.class_body AudioChannel.__init__
           grid1 grid1 (image_of [[[7%Z]]]) ImageChannel.class_body
           0 [[7%Z]] None).
  reflexivity.
Defined.

(* ===================================================================== *)
(** * The life of a MonoAudio and of a GrayImage *)
(* ===================================================================== *)

(** What a successful [MonoAudio.__init__] leaves. *)
Lemma MonoAudio_init_Ok x audio self :
  MonoAudio.__init__ x audio MonoAudio.fresh = (Ok tt, self) ->
  (length (_media.load audio) = 1 \/ length (_media.load audio) = 2)%nat /\
  MonoAudio._audio self = None /\
  MonoAudio._bps self = Some (_media.bps (_media.metadata audio)) /\
  exists y, MonoAudio.signal self = Some y.
Proof.
  destruct audio as [meta chans].
  destruct chans as [|c1 [|c2 [|c3 chans]]].
  - rewrite MonoAudio_init_unsupported by (cbn; lia). discriminate.
  - rewrite MonoAudio_init_mono. intros [= <-]. cbn. naive_solver.
  - rewrite MonoAudio_init_stereo. intros [= <-]. cbn. naive_solver.
  - rewrite MonoAudio_init_unsupported by (cbn; lia). discriminate.
Qed.

(** What a successful [GrayImage.__init__] leaves. *)
Lemma GrayImage_init_Ok x image self :
  GrayImage.__init__ x image GrayImage.fresh = (Ok tt, self) ->
  length (_media.image_load image) ∈ [1; 2; 3; 4]%nat /\
  GrayImage._image self = None /\
  exists y, GrayImage.signal self = Some y.
Proof.
  destruct image as [size planes].
  destruct planes as [|p1 [|p2 [|p3 [|p4 [|p5 planes]]]]].
  - rewrite GrayImage_init_unsupported; [discriminate|].
    cbn. intros H.
    repeat (apply elem_of_cons in H as [H|H]; [discriminate H|]).
    by apply elem_of_nil in H.
  - rewrite GrayImage_init_gray by (cbn; lia). intros [= <-]. cbn.
    split; [set_solver|eauto].
  - rewrite GrayImage_init_gray by (cbn; lia). intros [= <-]. cbn.
    split; [set_solver|eauto].
  - rewrite GrayImage_init_colour by (cbn; lia). intros [= <-]. cbn.
    split; [set_solver|eauto].
  - rewrite GrayImage_init_colour by (cbn; lia). intros [= <-]. cbn.
    split; [set_solver|eauto].
  - rewrite GrayImage_init_unsupported; [discriminate|].
    cbn. intros H.
    repeat (apply elem_of_cons in H as [H|H]; [lia|]).
    by apply elem_of_nil in H.
Qed.

(** X21: a MonoAudio is constructed only from a source with one or two
    channels, and a GrayImage only from a source with one to four planes;
    the constructed instance has a signal, has released its source, and
    (MonoAudio) reports the bits per sample of the source as its sample
    resolution. *)
Theorem constructed_media_signals (x : list Q) (audio : _media.Audio)
    (aself : MonoAudio.t) (grid : list (list (Q * Q)))
    (image : _media.Image) (iself : GrayImage.t) :
  MonoAudio.new x audio = Ok aself ->
  GrayImage.new grid image = Ok iself ->
  ((length (_media.load audio) = 1 \/ length (_media.load audio) = 2)%nat /\
   MonoAudio.sampres aself = Some (_media.bps (_media.metadata audio)) /\
   MonoAudio._audio aself = None /\
   exists y, MonoAudio.signal aself = Some y) /\
  (length (_media.image_load image) ∈ [1; 2; 3; 4]%nat /\
   GrayImage._image iself = None /\
   exists y, GrayImage.signal iself = Some y).
Proof.
  unfold MonoAudio.new, GrayImage.new. intros Ha Hi.
  destruct (MonoAudio.__init__ x audio MonoAudio.fresh)
    as [[[]|e] aself'] eqn:Ea; [|discriminate].
  destruct (GrayImage.__init__ grid image GrayImage.fresh)
    as [[[]|e] iself'] eqn:Ei; [|discriminate].
  injection Ha as ->. injection Hi as ->.
  apply MonoAudio_init_Ok in Ea as (? & ? & ? & ?).
  apply GrayImage_init_Ok in Ei as (? & ? & ?).
  by repeat split.
Qed.

Lemma constructed_media_signals_witness :
  ((length (_media.load (audio_of [[4]; [5]]%Z)) = 1 \/
    length (_media.load (audio_of [[4]; [5]]%Z)) = 2)%nat /\
   MonoAudio.sampres
     {| MonoAudio._audio := None; MonoAudio._bps := Some 16%Z;
        MonoAudio.signal := Some [4%Z] |}
   = Some (_media.bps (_media.metadata (audio_of [[4]; [5]]%Z))) /\
   MonoAudio._audio
     {| MonoAudio._audio := None; MonoAudio._bps := Some 16%Z;
        MonoAudio.signal := Some [4%Z] |} = None /\
   exists y,
     MonoAudio.signal
       {| MonoAudio._audio := None; MonoAudio._bps := Some 16%Z;
          MonoAudio.signal := Some [4%Z] |} = Some y) /\
  (length (_media.image_load (image_of [[[7%Z]]])) ∈ [1; 2; 3; 4]%nat /\
   GrayImage._image
     {| GrayImage._image := None; GrayImage.signal := Some [[7%Z]] |}
   = None /\
   exists y,
     GrayImage.signal
       {| GrayImage._image := None; GrayImage.signal := Some [[7%Z]] |}
     = Some y).
Proof.
  apply (constructed_media_signals [] (audio_of [[4]; [5]]%Z)
           {| MonoAudio._audio := None; MonoAudio._bps := Some 16%Z;
              MonoAudio.signal := Some [4%Z] |}
           grid1 (image_of [[[7%Z]]])
           {| GrayImage._image := None; GrayImage.signal := Some [[7%Z]] |});
    reflexivity.
Defined.

(** X22: the signal of a MonoAudio or of a GrayImage is generated once:
    after a successful construction the source is gone, and a further
    [make] raises [AttributeError] and leaves the instance, and the signal
    it holds, as they were. *)
Theorem media_make_twice (x x' : list Q) (audio : _media.Audio)
    (aself : MonoAudio.t) (grid grid' : list (list (Q * Q)))
    (image : _media.Image) (iself : GrayImage.t) :
  MonoAudio.__init__ x audio MonoAudio.fresh = (Ok tt, aself) ->
  GrayImage.__init__ grid image GrayImage.fresh = (Ok tt, iself) ->
  MonoAudio.make x' aself = (Raise (AttributeError "load"), aself) /\
  GrayImage.make grid' iself = (Raise (AttributeError "load"), iself).
Proof.
  intros Ha Hi.
  apply MonoAudio_init_Ok in Ha as (_ & Ha & _).
  apply GrayImage_init_Ok in Hi as (_ & Hi & _).
  unfold MonoAudio.make, MonoAudio._generate,
    GrayImage.make, GrayImage._generate.
  unfold mbind, eff_bind, get, lift. by rewrite Ha, Hi.
Qed.

Lemma media_make_twice_witness :
  MonoAudio.make []
    {| MonoAudio._audio := None; MonoAudio._bps := Some 16%Z;
       MonoAudio.signal := Some [4%Z] |}
  = (Raise (AttributeError "load"),
     {| MonoAudio._audio := None; MonoAudio._bps := Some 16%Z;
        MonoAudio.signal := Some [4%Z] |}) /\
  GrayImage.make grid1
    {| GrayImage._image := None; GrayImage.signal := Some [[7%Z]] |}
  = (Raise (AttributeError "load"),
     {| GrayImage._image := None; GrayImage.signal := Some [[7%Z]] |}).
Proof.
  apply (media_make_twice [] [] (audio_of [[4]; [5]]%Z)
           {| MonoAudio._audio := None; MonoAudio._bps := Some 16%Z;
              MonoAudio.signal := Some [4%Z] |}
           grid1 grid1 (image_of [[[7%Z]]])
           {| GrayImage._image := None; GrayImage.signal := Some [[7%Z]] |});
    reflexivity.
Defined.

(* ===================================================================== *)
(** * Pulse2D on grids with rows of different lengths *)
(* ===================================================================== *)





